(** * poetry_scripts.py: the documentation command dispatcher

    A shallow embedding of [src/poetry_scripts.py].  The script reads
    [sys.argv], copies and extends [os.environ], prints to standard output,
    starts external programs with [subprocess.run] and may leave through
    [sys.exit]; these effects are threaded through a state-and-exception
    monad over a record describing the interpreter's surroundings. *)

From Stdlib Require Import ZArith.
From stdpp Require Import base strings list gmap.

Local Open Scope string_scope.
Local Open Scope list_scope.

(** ** The part of the Python runtime the script touches *)

Module Py.

(** A reference to a mapping object: [os.environ] itself, or a [dict]
    allocated by the program.  [os.environ.copy()] yields a new [dict], so
    the two must be told apart to see which object an item assignment
    mutates. *)
Inductive mapping_ref : Type :=
  | OsEnviron
  | Dict (l : nat).

(** One call of [subprocess.run]: the argument vector and the environment
    the child is given. *)
Record Proc : Type := mkProc {
  proc_args : list string;
  proc_env : gmap string string
}.

Record World : Type := mkWorld {
  (** [sys.argv] *)
  sys_argv : list string;
  (** the contents of [os.environ], the dispatcher's own environment *)
  os_environ : gmap string string;
  (** the [dict] objects the program has allocated *)
  heap : gmap nat (gmap string string);
  (** the lines written by [print], oldest first *)
  stdout : list string;
  (** the calls of [subprocess.run] made so far, oldest first *)
  invocations : list Proc;
  (** whether a program name resolves to an executable under a given
      environment; outside the script's control *)
  can_exec : gmap string string → string → bool
}.

Definition with_argv (argv : list string) (w : World) : World :=
  mkWorld argv (os_environ w) (heap w) (stdout w) (invocations w) (can_exec w).

Inductive exn : Type :=
  | SystemExit (code : Z)
  | IndexError
  | FileNotFoundError (prog : string).

Inductive outcome (A : Type) : Type :=
  | Normal (a : A)
  | Raised (e : exn).
Global Arguments Normal {A} a.
Global Arguments Raised {A} e.

(** A statement or expression: runs in a world, ends normally with a value
    or with an exception, and leaves a world behind. *)
Definition Run (A : Type) : Type := World → outcome A * World.

Global Instance Run_ret : MRet Run := λ A a w, (Normal a, w).
Global Instance Run_bind : MBind Run := λ A B f m w,
  match m w with
  | (Normal a, w') => f a w'
  | (Raised e, w') => (Raised e, w')
  end.

Definition raise {A : Type} (e : exn) : Run A := λ w, (Raised e, w).

(** The status the interpreter process ends with: 0 when the script runs
    to its end, the code of [SystemExit], 1 for any other exception that
    nothing catches. *)
Definition exit_status {A : Type} (o : outcome A) : Z :=
  match o with
  | Normal _ => 0
  | Raised (SystemExit code) => code
  | Raised _ => 1
  end.

(** [sys.argv] *)
Definition get_argv : Run (list string) := λ w, (Normal (sys_argv w), w).

(** [l[i]] for a non-negative literal index *)
Definition index (l : list string) (i : nat) : Run string :=
  match l !! i with
  | Some x => mret x
  | None => raise IndexError
  end.

(** [print(s)] *)
Definition print (s : string) : Run unit := λ w,
  (Normal (),
   mkWorld (sys_argv w) (os_environ w) (heap w) (stdout w ++ [s])
           (invocations w) (can_exec w)).

(** The contents of a mapping object. *)
Definition contents (r : mapping_ref) (w : World) : gmap string string :=
  match r with
  | OsEnviron => os_environ w
  | Dict l => heap w !!! l
  end.

(** [r.copy()]: a new [dict] with the same items. *)
Definition copy (r : mapping_ref) : Run mapping_ref := λ w,
  let l := fresh (dom (heap w)) in
  (Normal (Dict l),
   mkWorld (sys_argv w) (os_environ w) (<[l := contents r w]> (heap w))
           (stdout w) (invocations w) (can_exec w)).

(** [r[k] = v]: mutates the object [r] refers to. *)
Definition setitem (r : mapping_ref) (k v : string) : Run unit := λ w,
  match r with
  | OsEnviron =>
      (Normal (),
       mkWorld (sys_argv w) (<[k := v]> (os_environ w)) (heap w)
               (stdout w) (invocations w) (can_exec w))
  | Dict l =>
      (Normal (),
       mkWorld (sys_argv w) (os_environ w)
               (<[l := <[k := v]> (heap w !!! l)]> (heap w))
               (stdout w) (invocations w) (can_exec w))
  end.

(** [sys.exit(code)] *)
Definition sys_exit {A : Type} (code : Z) : Run A := raise (SystemExit code).

(** [subprocess.run(cmd)] and [subprocess.run(cmd, env=env)].  Without
    [env] the child inherits the current environment.  The call is
    recorded, then the program is started: a name that does not resolve
    raises [FileNotFoundError]; otherwise the call blocks until the child
    ends and its return code is dropped (no [check=True]). *)
Definition subprocess_run (cmd : list string) (env : option mapping_ref)
    : Run unit := λ w,
  let e := contents (default OsEnviron env) w in
  let w' := mkWorld (sys_argv w) (os_environ w) (heap w) (stdout w)
                    (invocations w ++ [mkProc cmd e]) (can_exec w) in
  match cmd with
  | [] => (Raised IndexError, w)
  | prog :: _ =>
      if can_exec w e prog then (Normal (), w')
      else (Raised (FileNotFoundError prog), w')
  end.

(** Truth value of a [str]: false exactly for the empty string. *)
Definition truthy (s : string) : bool :=
  match s with
  | EmptyString => false
  | String _ _ => true
  end.

End Py.

Import Py.

(** ** The script *)

Definition serve : Run unit :=
  subprocess_run ["mkdocs"; "serve"] None.

Definition build : Run unit :=
  subprocess_run ["mkdocs"; "build"] None.

Definition build_pdf : Run unit :=
  env ← copy OsEnviron;
  setitem env "ENABLE_PDF_EXPORT" "1";;
  subprocess_run ["mkdocs"; "build"] (Some env).

(** The first three statements of [deploy_version]: the values of its
    locals [version] and [message]. *)
Definition deploy_version_locals : Run (string * string) :=
  argv ← get_argv;
  let args := drop 1 argv in
  version ← (if (0 <? length args)%nat then index args 0
             else mret "latest");
  message ← (if (1 <? length args)%nat then index args 1
             else mret ("Deploy version " +:+ version));
  mret (version, message).

(** The rest of [deploy_version], from the construction of [cmd]. *)
Definition deploy_version_body (version message : string) : Run unit :=
  let cmd := ["mike"; "deploy"; "--push"; "--update-aliases"; version; "latest"] in
  let cmd := if truthy message then cmd ++ ["-m"; message] else cmd in
  print ("Deploying documentation version: " +:+ version);;
  print ("Commit message: " +:+ message);;
  subprocess_run cmd None.

Definition deploy_version : Run unit :=
  '(version, message) ← deploy_version_locals;
  deploy_version_body version message.

(** The [if __name__ == "__main__":] block. *)
Definition main : Run unit :=
  argv ← get_argv;
  command ← (if (1 <? length argv)%nat then index argv 1
             else mret "serve");
  if String.eqb command "serve" then serve
  else if String.eqb command "build" then build
  else if String.eqb command "build-pdf" then build_pdf
  else if String.eqb command "deploy-version" then deploy_version
  else
    print ("Unknown command: " +:+ command);;
    print "Available commands: serve, build, build-pdf, deploy-version";;
    sys_exit 1.

(** A world to evaluate in: empty environment, nothing printed or run yet,
    every program name resolves. *)
Definition world0 (argv : list string) : World :=
  mkWorld argv ∅ ∅ [] [] (λ _ _, true).

(** [deploy_version] with the test [if message:] taken out, so that the
    message flag is appended whatever the message is.  This variant is not
    in the source: the design notes say the test may be omitted, and it is
    here to be compared with [deploy_version]. *)
Definition deploy_version_body_unguarded (version message : string)
    : Run unit :=
  let cmd := ["mike"; "deploy"; "--push"; "--update-aliases"; version; "latest"] in
  let cmd := cmd ++ ["-m"; message] in
  print ("Deploying documentation version: " +:+ version);;
  print ("Commit message: " +:+ message);;
  subprocess_run cmd None.

Definition deploy_version_unguarded : Run unit :=
  '(version, message) ← deploy_version_locals;
  deploy_version_body_unguarded version message.

(** ** Vocabulary of the statements *)

(** The names the dispatcher recognises. *)
Definition known_commands : list string :=
  ["serve"; "build"; "build-pdf"; "deploy-version"].

(** [s] occurs in [t]. *)
Definition contains (t s : string) : Prop :=
  ∃ pre post : string, t = pre +:+ s +:+ post.

(** A computation that never leaves through [sys.exit]. *)
Definition no_exit {A : Type} (m : Run A) : Prop :=
  ∀ (w : World) (code : Z), (m w).1 ≠ Raised (SystemExit code).

(** What [deploy_version_locals] reads off the positional arguments. *)
Definition positional (args : list string) : string * string :=
  match args with
  | [] => ("latest", "Deploy version latest")
  | [v] => (v, "Deploy version " +:+ v)
  | v :: m :: _ => (v, m)
  end.

(** The argument vector [deploy_version_body] builds. *)
Definition mike_cmd (version message : string) : list string :=
  ["mike"; "deploy"; "--push"; "--update-aliases"; version; "latest"]
  ++ (if truthy message then ["-m"; message] else []).

(** ** Evaluation examples *)

Example main_build_pdf_runs :
  invocations (main (world0 ["poetry_scripts.py"; "build-pdf"])).2
  = [mkProc ["mkdocs"; "build"] {["ENABLE_PDF_EXPORT" := "1"]}].
Proof. vm_compute. reflexivity. Qed.

Example deploy_two_args :
  (deploy_version (world0 ["deploy-version"; "1.0.0"; "Initial release"])).2
  = mkWorld ["deploy-version"; "1.0.0"; "Initial release"] ∅ ∅
      ["Deploying documentation version: 1.0.0";
       "Commit message: Initial release"]
      [mkProc ["mike"; "deploy"; "--push"; "--update-aliases"; "1.0.0";
               "latest"; "-m"; "Initial release"] ∅]
      (λ _ _, true).
Proof. reflexivity. Qed.

(** Assigning through [os.environ] itself, not through a copy, does change
    the dispatcher's environment. *)
Example setitem_os_environ_mutates :
  os_environ (setitem OsEnviron "ENABLE_PDF_EXPORT" "1" (world0 [])).2
  = {["ENABLE_PDF_EXPORT" := "1"]}.
Proof. vm_compute. reflexivity. Qed.

Example main_unknown_exits :
  main (world0 ["poetry_scripts.py"; "Serve"])
  = (Raised (SystemExit 1),
     mkWorld ["poetry_scripts.py"; "Serve"] ∅ ∅
       ["Unknown command: Serve";
        "Available commands: serve, build, build-pdf, deploy-version"]
       [] (λ _ _, true)).
Proof. reflexivity. Qed.

(** ** Stepping lemmas *)

Section Stepping.
Context {A B : Type}.

Lemma bind_normal (m : Run A) (f : A → Run B) (w w' : World) (a : A) :
  m w = (Normal a, w') → (m ≫= f) w = f a w'.
Proof. intros H. unfold mbind, Run_bind. by rewrite H. Qed.

Lemma no_exit_bind (m : Run A) (f : A → Run B) :
  no_exit m → (∀ a, no_exit (f a)) → no_exit (m ≫= f).
Proof.
  intros Hm Hf w code. unfold mbind, Run_bind.
  specialize (Hm w code).
  destruct (m w) as [[a|e] w']; simpl in *; [apply Hf |].
  intros [= ->]. by apply Hm.
Qed.
End Stepping.

Lemma no_exit_ret {A : Type} (a : A) : no_exit (mret a : Run A).
Proof. by intros w code. Qed.

Lemma no_exit_print (s : string) : no_exit (print s).
Proof. by intros w code. Qed.

Lemma no_exit_get_argv : no_exit get_argv.
Proof. by intros w code. Qed.

Lemma no_exit_copy (r : mapping_ref) : no_exit (copy r).
Proof. by intros w code. Qed.

Lemma no_exit_setitem (r : mapping_ref) (k v : string) :
  no_exit (setitem r k v).
Proof. intros w code. by destruct r. Qed.

Lemma no_exit_index (l : list string) (i : nat) : no_exit (index l i).
Proof. intros w code. unfold index. by destruct (l !! i). Qed.

Lemma no_exit_subprocess_run (cmd : list string) (env : option mapping_ref) :
  no_exit (subprocess_run cmd env).
Proof.
  intros w code. unfold subprocess_run.
  destruct cmd as [|prog cmd]; [done|]. by case (can_exec w _ prog).
Qed.

Create HintDb no_exit_db.
#[local] Hint Resolve no_exit_ret no_exit_print no_exit_get_argv no_exit_copy
  no_exit_setitem no_exit_index no_exit_subprocess_run : no_exit_db.

Ltac no_exit_tac :=
  repeat first
    [ apply no_exit_bind; [| intros ? ]
    | progress auto with no_exit_db
    | match goal with |- no_exit (if ?b then _ else _) => destruct b end
    | match goal with |- no_exit (let '(_, _) := ?p in _) => destruct p end ].

Lemma no_exit_serve : no_exit serve.
Proof. unfold serve. no_exit_tac. Qed.

Lemma no_exit_build : no_exit build.
Proof. unfold build. no_exit_tac. Qed.

Lemma no_exit_build_pdf : no_exit build_pdf.
Proof. unfold build_pdf. no_exit_tac. Qed.

Lemma no_exit_deploy_version : no_exit deploy_version.
Proof.
  unfold deploy_version, deploy_version_locals, deploy_version_body.
  no_exit_tac.
Qed.

(** ** What each function leaves behind *)

Lemma subprocess_run_world (prog : string) (cmd : list string)
    (env : option mapping_ref) (w : World) :
  (subprocess_run (prog :: cmd) env w).2
  = mkWorld (sys_argv w) (os_environ w) (heap w) (stdout w)
      (invocations w
       ++ [mkProc (prog :: cmd) (contents (default OsEnviron env) w)])
      (can_exec w).
Proof. unfold subprocess_run. by case (can_exec w _ prog). Qed.

Lemma serve_world (w : World) :
  (serve w).2
  = mkWorld (sys_argv w) (os_environ w) (heap w) (stdout w)
      (invocations w ++ [mkProc ["mkdocs"; "serve"] (os_environ w)])
      (can_exec w).
Proof. apply subprocess_run_world. Qed.

Lemma deploy_version_locals_positional (w : World) :
  deploy_version_locals w = (Normal (positional (drop 1 (sys_argv w))), w).
Proof.
  unfold deploy_version_locals, get_argv, mbind, Run_bind.
  destruct (sys_argv w) as [|a0 [|v [|m rest]]]; reflexivity.
Qed.

Lemma deploy_version_unfold (w : World) :
  deploy_version w
  = deploy_version_body (positional (drop 1 (sys_argv w))).1
                        (positional (drop 1 (sys_argv w))).2 w.
Proof.
  unfold deploy_version.
  rewrite (bind_normal _ _ _ _ _ (deploy_version_locals_positional w)).
  by destruct (positional _).
Qed.

Lemma deploy_version_unguarded_unfold (w : World) :
  deploy_version_unguarded w
  = deploy_version_body_unguarded (positional (drop 1 (sys_argv w))).1
                                  (positional (drop 1 (sys_argv w))).2 w.
Proof.
  unfold deploy_version_unguarded.
  rewrite (bind_normal _ _ _ _ _ (deploy_version_locals_positional w)).
  by destruct (positional _).
Qed.

Lemma deploy_version_body_world (version message : string) (w : World) :
  (deploy_version_body version message w).2
  = mkWorld (sys_argv w) (os_environ w) (heap w)
      (stdout w ++ ["Deploying documentation version: " +:+ version;
                    "Commit message: " +:+ message])
      (invocations w ++ [mkProc (mike_cmd version message) (os_environ w)])
      (can_exec w).
Proof.
  unfold deploy_version_body, mike_cmd, print, mbind, Run_bind.
  destruct (truthy message); cbn [app];
    rewrite subprocess_run_world; cbn; by rewrite <- app_assoc.
Qed.

Lemma deploy_version_body_guard (version message : string) :
  truthy message = true →
  deploy_version_body_unguarded version message
  = deploy_version_body version message.
Proof.
  intros H. unfold deploy_version_body, deploy_version_body_unguarded.
  by rewrite H.
Qed.

Lemma truthy_nonempty (s : string) : truthy s = true ↔ s ≠ "".
Proof. by destruct s. Qed.

Lemma positional_take (args : list string) :
  positional (take 2 args) = positional args.
Proof. by destruct args as [|v [|m rest]]. Qed.

Lemma append_empty_r (s : string) : s +:+ "" = s.
Proof.
  induction s as [|c s IH]; [done|].
  change (String c (s +:+ "") = String c s). by f_equal.
Qed.

Lemma contains_suffix (pre s : string) : contains (pre +:+ s) s.
Proof. exists pre, "". by rewrite append_empty_r. Qed.

Lemma main_unfold (w : World) :
  main w
  = (let command := default "serve" (sys_argv w !! 1) in
     if String.eqb command "serve" then serve w
     else if String.eqb command "build" then build w
     else if String.eqb command "build-pdf" then build_pdf w
     else if String.eqb command "deploy-version" then deploy_version w
     else (Raised (SystemExit 1),
           mkWorld (sys_argv w) (os_environ w) (heap w)
             (stdout w
              ++ ["Unknown command: " +:+ command;
                  "Available commands: serve, build, build-pdf, deploy-version"])
             (invocations w) (can_exec w))).
Proof.
  destruct w as [argv env hp out inv ce].
  unfold main, get_argv, mbind, Run_bind.
  destruct argv as [|a0 [|c rest]]; try reflexivity.
  cbn -[String.eqb].
  repeat (case (String.eqb c _); [reflexivity|]).
  unfold sys_exit, raise. by rewrite <- app_assoc.
Qed.

Lemma not_known_eqb (s : string) :
  s ∉ known_commands →
  String.eqb s "serve" = false ∧ String.eqb s "build" = false
  ∧ String.eqb s "build-pdf" = false
  ∧ String.eqb s "deploy-version" = false.
Proof.
  intros H. unfold known_commands in H.
  rewrite !elem_of_cons, elem_of_nil in H.
  repeat split; apply String.eqb_neq; tauto.
Qed.

(** Leaving through [sys.exit] happens only on a command name that is not
    one of the four, and only with status 1. *)
Lemma main_exit_only_unknown (w : World) (code : Z) :
  (main w).1 = Raised (SystemExit code) →
  code = 1%Z
  ∧ ∃ (a0 s : string) (rest : list string),
      sys_argv w = a0 :: s :: rest ∧ s ∉ known_commands.
Proof.
  rewrite main_unfold. cbn zeta.
  destruct (String.eqb _ "serve") eqn:E1;
    [intros H; by apply no_exit_serve in H|].
  destruct (String.eqb _ "build") eqn:E2;
    [intros H; by apply no_exit_build in H|].
  destruct (String.eqb _ "build-pdf") eqn:E3;
    [intros H; by apply no_exit_build_pdf in H|].
  destruct (String.eqb _ "deploy-version") eqn:E4;
    [intros H; by apply no_exit_deploy_version in H|].
  intros [= <-]. split; [done|].
  destruct (sys_argv w) as [|a0 [|s rest]]; try discriminate E1.
  exists a0, s, rest. split; [done|].
  cbn in E1, E2, E3, E4.
  apply String.eqb_neq in E1, E2, E3, E4.
  unfold known_commands. rewrite !elem_of_cons, elem_of_nil. tauto.
Qed.

Lemma build_pdf_world (w : World) :
  (build_pdf w).2
  = mkWorld (sys_argv w) (os_environ w)
      (<[fresh (dom (heap w)) :=
           <["ENABLE_PDF_EXPORT" := "1"]> (os_environ w)]> (heap w))
      (stdout w)
      (invocations w
       ++ [mkProc ["mkdocs"; "build"]
                  (<["ENABLE_PDF_EXPORT" := "1"]> (os_environ w))])
      (can_exec w).
Proof.
  unfold build_pdf, copy, setitem, mbind, Run_bind.
  rewrite subprocess_run_world. cbn.
  by rewrite !lookup_total_insert_eq, insert_insert_eq.
Qed.

Lemma build_pdf_outcome (w : World) :
  (build_pdf w).1
  = if can_exec w (<["ENABLE_PDF_EXPORT" := "1"]> (os_environ w)) "mkdocs"
    then Normal () else Raised (FileNotFoundError "mkdocs").
Proof.
  unfold build_pdf, copy, setitem, subprocess_run, mbind, Run_bind. cbn.
  rewrite !lookup_total_insert_eq. by case (can_exec w _ "mkdocs").
Qed.

(** ** The claims *)

(** C1 (the code departs from this).  Under the dispatcher the version and
    message should be resolved from the arguments after the command name.
    [deploy_version] reads [sys.argv[1:]], which under the dispatcher still
    starts with the command name: with command line [deploy-version v m]
    the version is the token [deploy-version] and the message is [v]; with
    [deploy-version] alone the version is [deploy-version], not [latest].
    The last part evaluates the command line
    [deploy-version 1.0.0 "Initial release"]. *)
Theorem main_deploy_version_reads_command_token
    (w : World) (a0 v m : string) (rest : list string) :
  let w2 := with_argv (a0 :: "deploy-version" :: v :: m :: rest) w in
  let w0 := with_argv [a0; "deploy-version"] w in
  main w2 = deploy_version w2
  ∧ deploy_version_locals w2 = (Normal ("deploy-version", v), w2)
  ∧ invocations (main w2).2
    = invocations w ++ [mkProc (mike_cmd "deploy-version" v) (os_environ w)]
  ∧ main w0 = deploy_version w0
  ∧ deploy_version_locals w0
    = (Normal ("deploy-version", "Deploy version deploy-version"), w0)
  ∧ invocations (main w0).2
    = invocations w
      ++ [mkProc ["mike"; "deploy"; "--push"; "--update-aliases";
                  "deploy-version"; "latest";
                  "-m"; "Deploy version deploy-version"] (os_environ w)]
  ∧ (main (world0 ["poetry_scripts.py"; "deploy-version"; "1.0.0";
                   "Initial release"])).2
    = mkWorld ["poetry_scripts.py"; "deploy-version"; "1.0.0";
               "Initial release"] ∅ ∅
        ["Deploying documentation version: deploy-version";
         "Commit message: 1.0.0"]
        [mkProc ["mike"; "deploy"; "--push"; "--update-aliases";
                 "deploy-version"; "latest"; "-m"; "1.0.0"] ∅]
        (λ _ _, true).
Proof.
  intros w2 w0.
  assert (main w2 = deploy_version w2) as E2 by (by rewrite main_unfold).
  assert (main w0 = deploy_version w0) as E0 by (by rewrite main_unfold).
  rewrite E2, E0, !deploy_version_unfold, !deploy_version_body_world.
  rewrite !deploy_version_locals_positional.
  repeat split.
Qed.

(** C2, as stated, fails: with an empty string as the second positional
    argument the message is empty, the test [if message:] is false, the
    command vector has no [-m], and the variant without the test builds a
    different vector. *)
Lemma deploy_version_guard_can_be_false :
  deploy_version_locals (world0 ["deploy-version"; "1.0.0"; ""])
  = (Normal ("1.0.0", ""), world0 ["deploy-version"; "1.0.0"; ""])
  ∧ truthy "" = false
  ∧ invocations (deploy_version (world0 ["deploy-version"; "1.0.0"; ""])).2
    = [mkProc ["mike"; "deploy"; "--push"; "--update-aliases"; "1.0.0";
               "latest"] ∅]
  ∧ invocations
      (deploy_version_unguarded (world0 ["deploy-version"; "1.0.0"; ""])).2
    = [mkProc ["mike"; "deploy"; "--push"; "--update-aliases"; "1.0.0";
               "latest"; "-m"; ""] ∅]
  ∧ deploy_version_unguarded (world0 ["deploy-version"; "1.0.0"; ""])
    ≠ deploy_version (world0 ["deploy-version"; "1.0.0"; ""]).
Proof. repeat split. intros H. discriminate H. Qed.

(** C2, amended.  For every argument list that has no second element or a
    non-empty one, the test [if message:] is true: the message is
    non-empty, the command vector ends with [-m] and the message, and
    [deploy_version] with the test taken out behaves the same (same
    outcome, same output, same command vector). *)
Theorem deploy_version_guard_true_unless_empty_message
    (w : World) (a0 : string) (args : list string)
    (Hmsg : args !! 1 ≠ Some "") :
  ∃ version message : string,
    deploy_version_locals (with_argv (a0 :: args) w)
    = (Normal (version, message), with_argv (a0 :: args) w)
    ∧ truthy message = true
    ∧ message ≠ ""
    ∧ invocations (deploy_version (with_argv (a0 :: args) w)).2
      = invocations w
        ++ [mkProc ["mike"; "deploy"; "--push"; "--update-aliases"; version;
                    "latest"; "-m"; message] (os_environ w)]
    ∧ deploy_version_unguarded (with_argv (a0 :: args) w)
      = deploy_version (with_argv (a0 :: args) w).
Proof.
  exists (positional args).1, (positional args).2.
  assert (truthy (positional args).2 = true) as Ht.
  { destruct args as [|v [|m rest]]; [done | done |].
    cbn in *. apply truthy_nonempty. congruence. }
  rewrite deploy_version_unfold, deploy_version_unguarded_unfold.
  rewrite deploy_version_body_world, deploy_version_locals_positional.
  cbn [with_argv sys_argv drop invocations os_environ].
  rewrite ?drop_0. unfold mike_cmd. rewrite Ht.
  split; [by destruct (positional args)|].
  split; [done|].
  split; [by apply truthy_nonempty|].
  split; [done|].
  by rewrite deploy_version_body_guard.
Qed.

Lemma deploy_version_guard_true_unless_empty_message_witness :
  ["2.0"] !! 1 ≠ Some ""
  ∧ ∃ version message : string,
      deploy_version_locals (with_argv ("deploy-version" :: ["2.0"]) (world0 []))
      = (Normal (version, message),
         with_argv ("deploy-version" :: ["2.0"]) (world0 []))
      ∧ truthy message = true
      ∧ message ≠ ""
      ∧ invocations
          (deploy_version (with_argv ("deploy-version" :: ["2.0"]) (world0 []))).2
        = invocations (world0 [])
          ++ [mkProc ["mike"; "deploy"; "--push"; "--update-aliases"; version;
                      "latest"; "-m"; message] (os_environ (world0 []))]
      ∧ deploy_version_unguarded
          (with_argv ("deploy-version" :: ["2.0"]) (world0 []))
        = deploy_version (with_argv ("deploy-version" :: ["2.0"]) (world0 [])).
Proof.
  split; [discriminate|].
  apply (deploy_version_guard_true_unless_empty_message
           (world0 []) "deploy-version" ["2.0"]).
  discriminate.
Defined.

(** C3.  Running [build_pdf] hands [subprocess.run] the argument vector
    [mkdocs build] with an environment equal to the dispatcher's
    environment extended by [ENABLE_PDF_EXPORT] bound to [1]; the
    dispatcher's own environment afterwards is the one before the call, so
    it holds [ENABLE_PDF_EXPORT] only if it did before.  The call returns
    whenever [mkdocs] can be started. *)
Theorem build_pdf_environment_isolation (w : World) :
  invocations (build_pdf w).2
  = invocations w
    ++ [mkProc ["mkdocs"; "build"]
               (<["ENABLE_PDF_EXPORT" := "1"]> (os_environ w))]
  ∧ (<["ENABLE_PDF_EXPORT" := "1"]> (os_environ w)) !! "ENABLE_PDF_EXPORT"
    = Some "1"
  ∧ os_environ (build_pdf w).2 = os_environ w
  ∧ os_environ (build_pdf w).2 !! "ENABLE_PDF_EXPORT"
    = os_environ w !! "ENABLE_PDF_EXPORT"
  ∧ (build_pdf w).1
    = if can_exec w (<["ENABLE_PDF_EXPORT" := "1"]> (os_environ w)) "mkdocs"
      then Normal () else Raised (FileNotFoundError "mkdocs").
Proof.
  rewrite build_pdf_world, build_pdf_outcome. cbn [invocations os_environ].
  split; [done|]. split; [apply lookup_insert_eq|]. done.
Qed.

(** C4.  For every string [s] that is not one of the four command names,
    the dispatcher run with [s] as first argument leaves through
    [sys.exit(1)], so the process ends with status 1; it has printed a
    line containing [s] and a line containing the four names, and has run
    nothing.  Conversely the dispatcher leaves through [sys.exit] only
    with status 1 and only on a first argument outside the four names, so
    no recognised command, and no empty command line, gets there. *)
Theorem main_unknown_command
    (w : World) (a0 s : string) (rest : list string)
    (Hs : s ∉ known_commands) :
  (main (with_argv (a0 :: s :: rest) w)).1 = Raised (SystemExit 1)
  ∧ exit_status (main (with_argv (a0 :: s :: rest) w)).1 = 1%Z
  ∧ stdout (main (with_argv (a0 :: s :: rest) w)).2
    = stdout w
      ++ ["Unknown command: " +:+ s;
          "Available commands: serve, build, build-pdf, deploy-version"]
  ∧ contains ("Unknown command: " +:+ s) s
  ∧ Forall
      (contains "Available commands: serve, build, build-pdf, deploy-version")
      known_commands
  ∧ invocations (main (with_argv (a0 :: s :: rest) w)).2 = invocations w
  ∧ ∀ (w1 : World) (code : Z),
      (main w1).1 = Raised (SystemExit code) →
      code = 1%Z
      ∧ ∃ (b0 c : string) (more : list string),
          sys_argv w1 = b0 :: c :: more ∧ c ∉ known_commands.
Proof.
  destruct (not_known_eqb s Hs) as (E1 & E2 & E3 & E4).
  rewrite main_unfold.
  cbn [with_argv sys_argv lookup list_lookup default from_option id].
  cbn zeta. rewrite E1, E2, E3, E4.
  cbn [fst snd stdout invocations os_environ heap can_exec exit_status].
  repeat (split; [reflexivity|]).
  split; [apply contains_suffix|].
  split.
  - unfold known_commands. repeat apply Forall_cons_2; [| | | |constructor].
    + by exists "Available commands: ", ", build, build-pdf, deploy-version".
    + by exists "Available commands: serve, ", ", build-pdf, deploy-version".
    + by exists "Available commands: serve, build, ", ", deploy-version".
    + by exists "Available commands: serve, build, build-pdf, ", "".
  - split; [reflexivity|]. apply main_exit_only_unknown.
Qed.

Lemma main_unknown_command_witness :
  ("Serve" ∉ known_commands)
  ∧ (main (with_argv ("poetry_scripts.py" :: "Serve" :: ["x"]) (world0 []))).1
    = Raised (SystemExit 1).
Proof.
  assert ("Serve" ∉ known_commands) as H.
  { unfold known_commands. rewrite !elem_of_cons, elem_of_nil.
    intros [H|[H|[H|[H|[]]]]]; discriminate H. }
  split; [exact H|].
  exact (proj1 (main_unknown_command (world0 []) "poetry_scripts.py" "Serve"
                  ["x"] H)).
Defined.

(** [deploy_version_body] does not look at [sys.argv]. *)
Lemma deploy_version_body_argv
    (version message : string) (argv : list string) (w : World) :
  deploy_version_body version message (with_argv argv w)
  = ((deploy_version_body version message w).1,
     with_argv argv (deploy_version_body version message w).2).
Proof.
  unfold deploy_version_body, print, subprocess_run, mbind, Run_bind.
  destruct (truthy message); cbn;
    by case (can_exec w (os_environ w) "mike").
Qed.

(** C5.  With [1.0.0] and [Initial release] as its two positional
    arguments, [deploy_version] runs exactly the argument vector
    [mike deploy --push --update-aliases 1.0.0 latest -m "Initial release"],
    in that order, under the dispatcher's own environment. *)
Theorem deploy_version_explicit_arguments (w : World) (a0 : string) :
  invocations
    (deploy_version (with_argv [a0; "1.0.0"; "Initial release"] w)).2
  = invocations w
    ++ [mkProc ["mike"; "deploy"; "--push"; "--update-aliases"; "1.0.0";
                "latest"; "-m"; "Initial release"] (os_environ w)].
Proof. by rewrite deploy_version_unfold, deploy_version_body_world. Qed.

(** C6.  With no positional argument, [deploy_version] resolves the
    version to [latest] and the message to [Deploy version latest], and
    prints both. *)
Theorem deploy_version_defaults (w : World) (a0 : string) :
  deploy_version_locals (with_argv [a0] w)
  = (Normal ("latest", "Deploy version latest"), with_argv [a0] w)
  ∧ stdout (deploy_version (with_argv [a0] w)).2
    = stdout w
      ++ ["Deploying documentation version: latest";
          "Commit message: Deploy version latest"].
Proof.
  split; [reflexivity|].
  by rewrite deploy_version_unfold, deploy_version_body_world.
Qed.

(** C7.  With a version [v] as the only positional argument,
    [deploy_version] resolves the message to [Deploy version ] followed by
    [v], whatever [v] is. *)
Theorem deploy_version_default_message (w : World) (a0 v : string) :
  deploy_version_locals (with_argv [a0; v] w)
  = (Normal (v, "Deploy version " +:+ v), with_argv [a0; v] w)
  ∧ stdout (deploy_version (with_argv [a0; v] w)).2
    = stdout w
      ++ ["Deploying documentation version: " +:+ v;
          "Commit message: " +:+ "Deploy version " +:+ v].
Proof.
  split; [reflexivity|].
  by rewrite deploy_version_unfold, deploy_version_body_world.
Qed.

(** C8.  Run with no command-line argument, the dispatcher takes the
    [serve] branch, as it does for the explicit command [serve]: both runs
    are a call of [serve], both hand [mkdocs serve] to [subprocess.run]
    under the dispatcher's environment, and they end the same way with the
    same output. *)
Theorem main_defaults_to_serve (w : World) (a0 : string) :
  main (with_argv [a0] w) = serve (with_argv [a0] w)
  ∧ main (with_argv [a0; "serve"] w) = serve (with_argv [a0; "serve"] w)
  ∧ invocations (main (with_argv [a0] w)).2
    = invocations w ++ [mkProc ["mkdocs"; "serve"] (os_environ w)]
  ∧ invocations (main (with_argv [a0; "serve"] w)).2
    = invocations (main (with_argv [a0] w)).2
  ∧ stdout (main (with_argv [a0; "serve"] w)).2
    = stdout (main (with_argv [a0] w)).2
  ∧ os_environ (main (with_argv [a0; "serve"] w)).2
    = os_environ (main (with_argv [a0] w)).2
  ∧ (main (with_argv [a0; "serve"] w)).1 = (main (with_argv [a0] w)).1.
Proof.
  assert (main (with_argv [a0] w) = serve (with_argv [a0] w)) as E0
    by (by rewrite main_unfold).
  assert (main (with_argv [a0; "serve"] w) = serve (with_argv [a0; "serve"] w))
    as E1 by (by rewrite main_unfold).
  rewrite E0, E1, !serve_world.
  repeat (split; [reflexivity|]).
  unfold serve, subprocess_run. cbn.
  by case (can_exec w (os_environ w) "mkdocs").
Qed.

(** C9.  [deploy_version] falls back to a default only when an argument is
    absent.  An empty first argument gives the empty version, and with no
    second argument the message [Deploy version ] with its trailing
    space.  An empty second argument gives the empty message, and the
    command vector then stops after [latest], without [-m]. *)
Theorem deploy_version_defaults_on_absence_only
    (w : World) (a0 : string) :
  deploy_version_locals (with_argv [a0; ""] w)
  = (Normal ("", "Deploy version "), with_argv [a0; ""] w)
  ∧ (∀ (m : string) (rest : list string),
       deploy_version_locals (with_argv (a0 :: "" :: m :: rest) w)
       = (Normal ("", m), with_argv (a0 :: "" :: m :: rest) w))
  ∧ (∀ (v : string) (rest : list string),
       deploy_version_locals (with_argv (a0 :: v :: "" :: rest) w)
       = (Normal (v, ""), with_argv (a0 :: v :: "" :: rest) w)
       ∧ invocations
           (deploy_version (with_argv (a0 :: v :: "" :: rest) w)).2
         = invocations w
           ++ [mkProc ["mike"; "deploy"; "--push"; "--update-aliases"; v;
                       "latest"] (os_environ w)]).
Proof.
  split; [reflexivity|]. split; [reflexivity|].
  intros v rest. split; [reflexivity|].
  by rewrite deploy_version_unfold, deploy_version_body_world.
Qed.

(** C10.  [deploy_version] reads at most the first two positional
    arguments: two argument lists with the same first two elements (or the
    same elements, when there are fewer) give the same version and
    message, the same command vector, the same printed lines and the same
    outcome. *)
Theorem deploy_version_ignores_extra_arguments
    (w : World) (a0 b0 : string) (args1 args2 : list string)
    (Hagree : take 2 args1 = take 2 args2) :
  (deploy_version_locals (with_argv (a0 :: args1) w)).1
  = (deploy_version_locals (with_argv (b0 :: args2) w)).1
  ∧ invocations (deploy_version (with_argv (a0 :: args1) w)).2
    = invocations (deploy_version (with_argv (b0 :: args2) w)).2
  ∧ stdout (deploy_version (with_argv (a0 :: args1) w)).2
    = stdout (deploy_version (with_argv (b0 :: args2) w)).2
  ∧ (deploy_version (with_argv (a0 :: args1) w)).1
    = (deploy_version (with_argv (b0 :: args2) w)).1.
Proof.
  assert (positional args1 = positional args2) as E
    by (by rewrite <- (positional_take args1), Hagree, positional_take).
  rewrite !deploy_version_unfold, !deploy_version_locals_positional.
  cbn [with_argv sys_argv drop]. rewrite !drop_0, E.
  rewrite !(deploy_version_body_argv _ _ (_ :: _) w).
  by repeat split.
Qed.

Lemma deploy_version_ignores_extra_arguments_witness :
  take 2 ["1.0.0"; "Initial release"; "extra"]
  = take 2 ["1.0.0"; "Initial release"]
  ∧ invocations
      (deploy_version
         (with_argv ("a" :: ["1.0.0"; "Initial release"; "extra"])
                    (world0 []))).2
    = invocations
        (deploy_version
           (with_argv ("b" :: ["1.0.0"; "Initial release"]) (world0 []))).2.
Proof.
  split; [reflexivity|].
  exact (proj1 (proj2 (deploy_version_ignores_extra_arguments
                         (world0 []) "a" "b"
                         ["1.0.0"; "Initial release"; "extra"]
                         ["1.0.0"; "Initial release"] eq_refl))).
Defined.

(** ** Further properties of the script *)

Lemma pair_eta {A B : Type} (p : A * B) (a : A) (b : B) :
  p.1 = a → p.2 = b → p = (a, b).
Proof. destruct p. cbn. by intros -> ->. Qed.

Lemma subprocess_run_outcome (prog : string) (cmd : list string)
    (env : option mapping_ref) (w : World) :
  (subprocess_run (prog :: cmd) env w).1
  = if can_exec w (contents (default OsEnviron env) w) prog
    then Normal () else Raised (FileNotFoundError prog).
Proof. unfold subprocess_run. by case (can_exec w _ prog). Qed.

Lemma build_world (w : World) :
  (build w).2
  = mkWorld (sys_argv w) (os_environ w) (heap w) (stdout w)
      (invocations w ++ [mkProc ["mkdocs"; "build"] (os_environ w)])
      (can_exec w).
Proof. apply subprocess_run_world. Qed.

Lemma serve_outcome (w : World) :
  (serve w).1
  = if can_exec w (os_environ w) "mkdocs"
    then Normal () else Raised (FileNotFoundError "mkdocs").
Proof. apply subprocess_run_outcome. Qed.

Lemma build_outcome (w : World) :
  (build w).1
  = if can_exec w (os_environ w) "mkdocs"
    then Normal () else Raised (FileNotFoundError "mkdocs").
Proof. apply subprocess_run_outcome. Qed.

Lemma deploy_version_body_outcome (version message : string) (w : World) :
  (deploy_version_body version message w).1
  = if can_exec w (os_environ w) "mike"
    then Normal () else Raised (FileNotFoundError "mike").
Proof.
  unfold deploy_version_body, print, subprocess_run, mbind, Run_bind.
  destruct (truthy message); cbn;
    by case (can_exec w (os_environ w) "mike").
Qed.

Lemma deploy_version_outcome (w : World) :
  (deploy_version w).1
  = if can_exec w (os_environ w) "mike"
    then Normal () else Raised (FileNotFoundError "mike").
Proof. by rewrite deploy_version_unfold, deploy_version_body_outcome. Qed.

Lemma deploy_version_world (w : World) :
  (deploy_version w).2
  = mkWorld (sys_argv w) (os_environ w) (heap w)
      (stdout w
       ++ ["Deploying documentation version: "
             +:+ (positional (drop 1 (sys_argv w))).1;
           "Commit message: " +:+ (positional (drop 1 (sys_argv w))).2])
      (invocations w
       ++ [mkProc (mike_cmd (positional (drop 1 (sys_argv w))).1
                            (positional (drop 1 (sys_argv w))).2)
                  (os_environ w)])
      (can_exec w).
Proof. by rewrite deploy_version_unfold, deploy_version_body_world. Qed.

(** What [deploy_version_locals] computes, by list lookup. *)
Lemma positional_lookup (args : list string) :
  positional args
  = (default "latest" (args !! 0),
     default ("Deploy version " +:+ default "latest" (args !! 0)) (args !! 1)).
Proof. by destruct args as [|v [|m rest]]. Qed.

(** None of the three [mkdocs] actions reads [sys.argv]. *)
Lemma serve_argv (argv : list string) (w : World) :
  serve (with_argv argv w) = ((serve w).1, with_argv argv (serve w).2).
Proof. apply pair_eta; by rewrite ?serve_outcome, ?serve_world. Qed.

Lemma build_argv (argv : list string) (w : World) :
  build (with_argv argv w) = ((build w).1, with_argv argv (build w).2).
Proof. apply pair_eta; by rewrite ?build_outcome, ?build_world. Qed.

Lemma build_pdf_argv (argv : list string) (w : World) :
  build_pdf (with_argv argv w)
  = ((build_pdf w).1, with_argv argv (build_pdf w).2).
Proof. apply pair_eta; by rewrite ?build_pdf_outcome, ?build_pdf_world. Qed.

(** The command the dispatcher selects. *)
Lemma known_commands_eqb (c : string) :
  c ∈ known_commands
  ↔ String.eqb c "serve" = true ∨ String.eqb c "build" = true
    ∨ String.eqb c "build-pdf" = true
    ∨ String.eqb c "deploy-version" = true.
Proof.
  unfold known_commands. rewrite !elem_of_cons, elem_of_nil, !String.eqb_eq.
  tauto.
Qed.

Lemma main_known (w : World) :
  default "serve" (sys_argv w !! 1) ∈ known_commands →
  main w = serve w ∨ main w = build w ∨ main w = build_pdf w
  ∨ main w = deploy_version w.
Proof.
  rewrite known_commands_eqb, main_unfold. cbn zeta.
  destruct (String.eqb _ "serve"); [tauto|].
  destruct (String.eqb _ "build"); [tauto|].
  destruct (String.eqb _ "build-pdf"); [tauto|].
  destruct (String.eqb _ "deploy-version"); [tauto|].
  intros [H|[H|[H|H]]]; discriminate H.
Qed.

Lemma main_unknown (w : World) :
  default "serve" (sys_argv w !! 1) ∉ known_commands →
  main w
  = (Raised (SystemExit 1),
     mkWorld (sys_argv w) (os_environ w) (heap w)
       (stdout w
        ++ ["Unknown command: " +:+ default "serve" (sys_argv w !! 1);
            "Available commands: serve, build, build-pdf, deploy-version"])
       (invocations w) (can_exec w)).
Proof.
  intros H. destruct (not_known_eqb _ H) as (E1 & E2 & E3 & E4).
  rewrite main_unfold. cbn zeta. by rewrite E1, E2, E3, E4.
Qed.

Ltac main_cases w E :=
  let Hk := fresh "Hk" in
  destruct (decide (default "serve" (sys_argv w !! 1) ∈ known_commands))
    as [Hk|Hk];
  [ destruct (main_known w Hk) as [E|[E|[E|E]]]
  | pose proof (main_unknown w Hk) as E ].

(** X1.  No action of the script, and no run of the dispatcher, changes
    the dispatcher's own environment or [sys.argv]. *)
Theorem script_leaves_environment_and_argv (w : World) :
  Forall (λ f : Run unit,
            os_environ (f w).2 = os_environ w
            ∧ sys_argv (f w).2 = sys_argv w)
         [serve; build; build_pdf; deploy_version; main].
Proof.
  assert (∀ f : Run unit,
            f = serve ∨ f = build ∨ f = build_pdf ∨ f = deploy_version →
            os_environ (f w).2 = os_environ w
            ∧ sys_argv (f w).2 = sys_argv w) as Hf.
  { intros f [-> | [-> | [-> | ->]]];
      by rewrite ?serve_world, ?build_world, ?build_pdf_world,
                 ?deploy_version_world. }
  repeat apply Forall_cons_2; try (apply Hf; tauto); [|constructor].
  main_cases w E; rewrite E; try (apply Hf; tauto). done.
Qed.

(** X2.  A run of the dispatcher adds exactly one call of
    [subprocess.run] when the selected command is one of the four names,
    and none otherwise; earlier calls are kept, and the program started is
    [mkdocs] or [mike]. *)
Theorem main_starts_one_tool_per_known_command (w : World) :
  ∃ new : list Proc,
    invocations (main w).2 = invocations w ++ new
    ∧ length new
      = (if bool_decide (default "serve" (sys_argv w !! 1) ∈ known_commands)
         then 1 else 0)
    ∧ Forall (λ p : Proc,
                ∃ rest : list string,
                  proc_args p = "mkdocs" :: rest
                  ∨ proc_args p = "mike" :: rest) new.
Proof.
  main_cases w E; rewrite E;
    [rewrite bool_decide_eq_true_2 by done..
    |rewrite bool_decide_eq_false_2 by done].
  - rewrite serve_world. eexists [_]. repeat split.
    apply Forall_singleton. eexists. by left.
  - rewrite build_world. eexists [_]. repeat split.
    apply Forall_singleton. eexists. by left.
  - rewrite build_pdf_world. eexists [_]. repeat split.
    apply Forall_singleton. eexists. by left.
  - rewrite deploy_version_world. eexists [_]. repeat split.
    apply Forall_singleton. eexists. by right.
  - exists []. cbn. by rewrite app_nil_r.
Qed.



(** X5.  The PDF flag does not leak into later actions: a [build] run
    after [build_pdf] hands [mkdocs] the dispatcher's original
    environment, and a second [build_pdf] hands it the same extended
    environment as the first. *)
Theorem build_pdf_flag_does_not_leak (w : World) :
  invocations (build (build_pdf w).2).2
  = invocations w
    ++ [mkProc ["mkdocs"; "build"]
               (<["ENABLE_PDF_EXPORT" := "1"]> (os_environ w));
        mkProc ["mkdocs"; "build"] (os_environ w)]
  ∧ invocations (build_pdf (build_pdf w).2).2
    = invocations w
      ++ [mkProc ["mkdocs"; "build"]
                 (<["ENABLE_PDF_EXPORT" := "1"]> (os_environ w));
          mkProc ["mkdocs"; "build"]
                 (<["ENABLE_PDF_EXPORT" := "1"]> (os_environ w))].
Proof.
  rewrite build_world, !build_pdf_world. cbn [invocations os_environ].
  by rewrite <- !app_assoc.
Qed.

(** X6.  The environment [build_pdf] gives [mkdocs] agrees with the
    dispatcher's on every variable other than [ENABLE_PDF_EXPORT], set or
    unset, and binds [ENABLE_PDF_EXPORT] to [1] whatever it was before. *)
Theorem build_pdf_changes_only_the_flag
    (w : World) (k : string) (Hk : k ≠ "ENABLE_PDF_EXPORT") :
  ∃ e : gmap string string,
    invocations (build_pdf w).2
    = invocations w ++ [mkProc ["mkdocs"; "build"] e]
    ∧ e !! k = os_environ w !! k
    ∧ e !! "ENABLE_PDF_EXPORT" = Some "1".
Proof.
  exists (<["ENABLE_PDF_EXPORT" := "1"]> (os_environ w)).
  rewrite build_pdf_world. split; [done|].
  split; [by apply lookup_insert_ne | apply lookup_insert_eq].
Qed.

Lemma build_pdf_changes_only_the_flag_witness :
  "PATH" ≠ "ENABLE_PDF_EXPORT"
  ∧ ∃ e : gmap string string,
      invocations
        (build_pdf (mkWorld ["build-pdf"]
                      {["PATH" := "/usr/bin"; "ENABLE_PDF_EXPORT" := "0"]}
                      ∅ [] [] (λ _ _, true))).2
      = invocations
          (mkWorld ["build-pdf"]
             {["PATH" := "/usr/bin"; "ENABLE_PDF_EXPORT" := "0"]}
             ∅ [] [] (λ _ _, true))
        ++ [mkProc ["mkdocs"; "build"] e]
      ∧ e !! "PATH"
        = os_environ
            (mkWorld ["build-pdf"]
               {["PATH" := "/usr/bin"; "ENABLE_PDF_EXPORT" := "0"]}
               ∅ [] [] (λ _ _, true)) !! "PATH"
      ∧ e !! "ENABLE_PDF_EXPORT" = Some "1".
Proof.
  split; [discriminate|].
  apply (build_pdf_changes_only_the_flag
           (mkWorld ["build-pdf"]
              {["PATH" := "/usr/bin"; "ENABLE_PDF_EXPORT" := "0"]}
              ∅ [] [] (λ _ _, true)) "PATH").
  discriminate.
Defined.

(** X7.  When the dispatcher's environment already binds
    [ENABLE_PDF_EXPORT] to [1], [build_pdf] makes the same call, with the
    same environment and the same outcome, as [build]. *)
Theorem build_pdf_is_build_when_flag_set
    (w : World) (Hset : os_environ w !! "ENABLE_PDF_EXPORT" = Some "1") :
  invocations (build_pdf w).2 = invocations (build w).2
  ∧ (build_pdf w).1 = (build w).1.
Proof.
  rewrite build_pdf_world, build_world, build_pdf_outcome, build_outcome.
  by rewrite (insert_id _ _ _ Hset).
Qed.

Lemma build_pdf_is_build_when_flag_set_witness :
  os_environ (mkWorld ["build-pdf"] {["ENABLE_PDF_EXPORT" := "1"]}
                ∅ [] [] (λ _ _, true)) !! "ENABLE_PDF_EXPORT" = Some "1"
  ∧ invocations
      (build_pdf (mkWorld ["build-pdf"] {["ENABLE_PDF_EXPORT" := "1"]}
                    ∅ [] [] (λ _ _, true))).2
    = invocations
        (build (mkWorld ["build-pdf"] {["ENABLE_PDF_EXPORT" := "1"]}
                  ∅ [] [] (λ _ _, true))).2.
Proof.
  split; [vm_compute; reflexivity|].
  apply (build_pdf_is_build_when_flag_set
           (mkWorld ["build-pdf"] {["ENABLE_PDF_EXPORT" := "1"]}
              ∅ [] [] (λ _ _, true))).
  vm_compute. reflexivity.
Defined.

(** X8.  Under the dispatcher, [serve], [build] and [build-pdf] take no
    arguments: whatever follows the command name, the dispatcher makes the
    one call [mkdocs serve], [mkdocs build], or [mkdocs build] with the
    PDF flag, and prints nothing. *)
Theorem main_mkdocs_commands_ignore_arguments
    (w : World) (a0 : string) (rest : list string) :
  (main (with_argv (a0 :: "serve" :: rest) w)).2
  = with_argv (a0 :: "serve" :: rest) (serve w).2
  ∧ (main (with_argv (a0 :: "build" :: rest) w)).2
    = with_argv (a0 :: "build" :: rest) (build w).2
  ∧ (main (with_argv (a0 :: "build-pdf" :: rest) w)).2
    = with_argv (a0 :: "build-pdf" :: rest) (build_pdf w).2
  ∧ invocations (main (with_argv (a0 :: "serve" :: rest) w)).2
    = invocations w ++ [mkProc ["mkdocs"; "serve"] (os_environ w)]
  ∧ invocations (main (with_argv (a0 :: "build" :: rest) w)).2
    = invocations w ++ [mkProc ["mkdocs"; "build"] (os_environ w)]
  ∧ invocations (main (with_argv (a0 :: "build-pdf" :: rest) w)).2
    = invocations w
      ++ [mkProc ["mkdocs"; "build"]
                 (<["ENABLE_PDF_EXPORT" := "1"]> (os_environ w))]
  ∧ stdout (main (with_argv (a0 :: "serve" :: rest) w)).2 = stdout w
  ∧ stdout (main (with_argv (a0 :: "build" :: rest) w)).2 = stdout w
  ∧ stdout (main (with_argv (a0 :: "build-pdf" :: rest) w)).2 = stdout w.
Proof.
  assert (main (with_argv (a0 :: "serve" :: rest) w)
          = serve (with_argv (a0 :: "serve" :: rest) w)) as Es
    by (by rewrite main_unfold).
  assert (main (with_argv (a0 :: "build" :: rest) w)
          = build (with_argv (a0 :: "build" :: rest) w)) as Eb
    by (by rewrite main_unfold).
  assert (main (with_argv (a0 :: "build-pdf" :: rest) w)
          = build_pdf (with_argv (a0 :: "build-pdf" :: rest) w)) as Ep
    by (by rewrite main_unfold).
  rewrite Es, Eb, Ep, serve_argv, build_argv, build_pdf_argv.
  rewrite serve_world, build_world, build_pdf_world.
  by repeat split.
Qed.

(** X9.  The dispatcher does not look at [sys.argv[0]]: two runs whose
    command lines differ only in the script name end the same way, print
    the same lines and make the same calls. *)
Theorem main_ignores_script_name
    (w : World) (a0 b0 : string) (rest : list string) :
  (main (with_argv (a0 :: rest) w)).1 = (main (with_argv (b0 :: rest) w)).1
  ∧ stdout (main (with_argv (a0 :: rest) w)).2
    = stdout (main (with_argv (b0 :: rest) w)).2
  ∧ invocations (main (with_argv (a0 :: rest) w)).2
    = invocations (main (with_argv (b0 :: rest) w)).2.
Proof.
  rewrite !main_unfold.
  cbn [with_argv sys_argv lookup list_lookup].
  cbn zeta.
  destruct (String.eqb _ "serve"); [by rewrite !serve_argv|].
  destruct (String.eqb _ "build"); [by rewrite !build_argv|].
  destruct (String.eqb _ "build-pdf"); [by rewrite !build_pdf_argv|].
  destruct (String.eqb _ "deploy-version"); [|done].
  rewrite !deploy_version_unfold. cbn [with_argv sys_argv drop].
  by rewrite !(deploy_version_body_argv _ _ (_ :: _) w).
Qed.

(** X10.  When every program name resolves, the dispatcher's process ends
    with status 0 if the selected command is one of the four names and
    with status 1 otherwise. *)
Theorem main_exit_status_with_tools
    (w : World)
    (Htools : ∀ (e : gmap string string) (p : string), can_exec w e p = true) :
  exit_status (main w).1
  = if bool_decide (default "serve" (sys_argv w !! 1) ∈ known_commands)
    then 0%Z else 1%Z.
Proof.
  main_cases w E; rewrite E;
    [rewrite bool_decide_eq_true_2 by done..
    |by rewrite bool_decide_eq_false_2 by done];
    rewrite ?serve_outcome, ?build_outcome, ?build_pdf_outcome,
            ?deploy_version_outcome;
    by rewrite Htools.
Qed.

Lemma main_exit_status_with_tools_witness :
  (∀ (e : gmap string string) (p : string),
     can_exec (world0 ["poetry_scripts.py"; "build"]) e p = true)
  ∧ exit_status (main (world0 ["poetry_scripts.py"; "build"])).1
    = if bool_decide
           (default "serve" (sys_argv (world0 ["poetry_scripts.py"; "build"]) !! 1)
            ∈ known_commands)
      then 0%Z else 1%Z.
Proof.
  split; [reflexivity|].
  apply (main_exit_status_with_tools (world0 ["poetry_scripts.py"; "build"])).
  reflexivity.
Defined.

(** X11.  For every [sys.argv], the empty list included,
    [deploy_version] resolves the version to [sys.argv[1]] when there is
    one and to [latest] otherwise, and the message to [sys.argv[2]] when
    there is one and to [Deploy version ] followed by the resolved version
    otherwise; resolving them raises nothing and changes nothing. *)
Theorem deploy_version_locals_by_position (w : World) :
  deploy_version_locals w
  = (Normal
       (default "latest" (sys_argv w !! 1),
        default ("Deploy version " +:+ default "latest" (sys_argv w !! 1))
                (sys_argv w !! 2)),
     w).
Proof.
  rewrite deploy_version_locals_positional, positional_lookup.
  by rewrite !lookup_drop.
Qed.
